(** * WhenToExpect: the expected number of trials of the Flow Launcher plugin

  A shallow embedding of [when_to_expect.py] and of the Python built-ins it
  calls.  Python strings are modelled as Rocq strings whose characters are
  the code points below 256; Python floats are IEEE 754 binary64 numbers,
  modelled by the Standard Library's [spec_float] with [prec = 53] and
  [emax = 1024]; Python integers are [Z]; exceptions are the [Raise]
  outcomes of a small error monad. *)

From Stdlib Require Import ZArith Lia Bool List Ascii String.
From Stdlib Require Import SpecFloat DecimalString.
Import ListNotations.

Open Scope string_scope.
Open Scope Z_scope.

(** ** Exceptions *)

Inductive exn : Set :=
| ValueError
| ZeroDivisionError
| OverflowError.

Inductive result (A : Type) : Type :=
| Ok (a : A)
| Raise (e : exn).

Arguments Ok {A} a.
Arguments Raise {A} e.

Definition bind {A B : Type} (c : result A) (k : A -> result B) : result B :=
match c with
| Ok a => k a
| Raise e => Raise e
end.

Declare Scope py_scope.
Delimit Scope py_scope with py.
Notation "x <- c1 ;; c2" := (bind c1 (fun x => c2))
(at level 61, c1 at next level, right associativity) : py_scope.
Open Scope py_scope.

(** ** Strings *)

Module PyStr.

Definition code (c : ascii) : Z := Z.of_nat (nat_of_ascii c).

(** [str.isspace] on the code points below 256; this is the set on which
    [str.split] and [str.strip] cut. *)
Definition isspace (c : ascii) : bool :=
  let n := code c in
  ((9 <=? n) && (n <=? 13)) || ((28 <=? n) && (n <=? 32))
  || (n =? 133) || (n =? 160).

(** The regular expression class [\d] on the code points below 256. *)
Definition isdigit (c : ascii) : bool :=
  let n := code c in (48 <=? n) && (n <=? 57).

Definition digit_value (c : ascii) : Z := code c - 48.

(** Longest prefix of characters satisfying [f], and the rest. *)
Fixpoint span (f : ascii -> bool) (s : string) : string * string :=
  match s with
  | String c s' =>
      if f c then let (a, b) := span f s' in (String c a, b)
      else (EmptyString, s)
  | EmptyString => (EmptyString, EmptyString)
  end.

Fixpoint lstrip (f : ascii -> bool) (s : string) : string :=
  match s with
  | String c s' => if f c then lstrip f s' else s
  | EmptyString => EmptyString
  end.

(** Removes the trailing characters satisfying [f]. *)
Fixpoint rstrip (f : ascii -> bool) (s : string) : string :=
  match s with
  | String c s' =>
      match rstrip f s' with
      | EmptyString => if f c then EmptyString else String c EmptyString
      | t => String c t
      end
  | EmptyString => EmptyString
  end.

(** [s.strip()] *)
Definition strip (s : string) : string := rstrip isspace (lstrip isspace s).

(** [s.split()]: the maximal runs of non-space characters, in order.
    [cur] is the run being read, reversed. *)
Fixpoint split_aux (cur : string) (s : string) : list string :=
  match s with
  | String c s' =>
      if isspace c then
        match cur with
        | EmptyString => split_aux EmptyString s'
        | _ => cur :: split_aux EmptyString s'
        end
      else split_aux (cur ++ String c EmptyString) s'
  | EmptyString =>
      match cur with
      | EmptyString => []
      | _ => [cur]
      end
  end.

Definition split (s : string) : list string := split_aux EmptyString s.

(** [s.rstrip(chars)] *)
Definition mem (chars : string) (c : ascii) : bool :=
  existsb (Ascii.eqb c) (list_ascii_of_string chars).

Definition rstrip_chars (chars : string) (s : string) : string :=
  rstrip (mem chars) s.

(** The value of a string of decimal digits. *)
Fixpoint digits_value_acc (acc : Z) (s : string) : Z :=
  match s with
  | String c s' => digits_value_acc (10 * acc + digit_value c) s'
  | EmptyString => acc
  end.

Definition digits_value (s : string) : Z := digits_value_acc 0 s.

(** [str(n)] for an integer [n]. *)
Definition of_int (n : Z) : string := NilZero.string_of_int (Z.to_int n).

End PyStr.

(** ** Floats *)

Module PyFloat.

Definition float : Set := spec_float.

Definition prec : Z := 53.
Definition emax : Z := 1024.

Definition add : float -> float -> float := SFadd prec emax.
Definition sub : float -> float -> float := SFsub prec emax.
Definition mul : float -> float -> float := SFmul prec emax.
Definition eqb : float -> float -> bool := SFeqb.
Definition ltb : float -> float -> bool := SFltb.
Definition leb : float -> float -> bool := SFleb.

Definition pzero : float := S754_zero false.
Definition nzero : float := S754_zero true.
Definition pinf : float := S754_infinity false.
Definition ninf : float := S754_infinity true.
Definition nan : float := S754_nan.

(** [x / y] on floats: Python refuses a zero divisor of either sign. *)
Definition div (x y : float) : result float :=
  if eqb y pzero then Raise ZeroDivisionError
  else Ok (SFdiv prec emax x y).

(** The binary64 number nearest to [n / d] (ties to even), with the sign
    [neg]; a zero numerator gives the zero of that sign. *)
Definition of_ratio (neg : bool) (n : Z) (d : positive) : float :=
  match n with
  | Zpos m => SFdiv prec emax (S754_finite neg m 0) (S754_finite false d 0)
  | _ => S754_zero neg
  end.

(** The binary64 number nearest to [m * 10 ^ e], as [strtod] computes it
    for a decimal literal with digits [m] and exponent [e]. *)
Definition of_decimal (neg : bool) (m : Z) (e : Z) : float :=
  if 0 <=? e then
    match m * 10 ^ e with
    | Zpos p => binary_normalize prec emax (if neg then Zneg p else Zpos p) 0 false
    | _ => S754_zero neg
    end
  else of_ratio neg m (Z.to_pos (10 ^ (- e))).

Definition of_Z (n : Z) : float := binary_normalize prec emax n 0 false.

Definition one : float := of_Z 1.
Definition half : float := of_decimal false 5 (-1).
Definition hundred : float := of_Z 100.

(** *** [float(s)] *)

(** The spaces [float] accepts around a literal: the C spaces, and the
    two non-ASCII code points below 256 that Python turns into a space
    beforehand. *)
Definition isspace (c : ascii) : bool :=
  let n := PyStr.code c in
  ((9 <=? n) && (n <=? 13)) || (n =? 32) || (n =? 133) || (n =? 160).

(** Underscores may only stand between two digits; they are removed.
    [prev] is the character read before. *)
Fixpoint strip_underscores (prev : ascii) (s : string) : option string :=
  match s with
  | String c s' =>
      if Ascii.eqb c "_" then
        if PyStr.isdigit prev then strip_underscores c s' else None
      else if Ascii.eqb prev "_" && negb (PyStr.isdigit c) then None
      else option_map (String c) (strip_underscores c s')
  | EmptyString => if Ascii.eqb prev "_" then None else Some EmptyString
  end.

Definition lower (c : ascii) : ascii :=
  let n := PyStr.code c in
  if (65 <=? n) && (n <=? 90) then ascii_of_nat (Z.to_nat (n + 32)) else c.

Fixpoint lowercase (s : string) : string :=
  match s with
  | String c s' => String (lower c) (lowercase s')
  | EmptyString => EmptyString
  end.

(** An optional sign; [true] is minus. *)
Definition read_sign (s : string) : bool * string :=
  match s with
  | String c s' =>
      if Ascii.eqb c "-" then (true, s')
      else if Ascii.eqb c "+" then (false, s')
      else (false, s)
  | EmptyString => (false, s)
  end.

(** [inf], [infinity] and [nan], in any case, after the sign. *)
Definition parse_inf_or_nan (neg : bool) (s : string) : option float :=
  let t := lowercase s in
  if String.eqb t "inf" || String.eqb t "infinity" then Some (S754_infinity neg)
  else if String.eqb t "nan" then Some S754_nan
  else None.

(** The exponent part: empty, or [e] or [E], an optional sign and at least
    one digit, up to the end of the string. *)
Definition parse_exponent (s : string) : option Z :=
  match s with
  | EmptyString => Some 0
  | String c s' =>
      if Ascii.eqb (lower c) "e" then
        let (neg, s1) := read_sign s' in
        let (ds, rest) := PyStr.span PyStr.isdigit s1 in
        match ds, rest with
        | String _ _, EmptyString =>
            Some (if neg then - PyStr.digits_value ds else PyStr.digits_value ds)
        | _, _ => None
        end
      else None
  end.

(** A decimal literal after the sign: digits, an optional point and
    digits, with a digit on at least one side, and the exponent part. *)
Definition parse_decimal (neg : bool) (s : string) : option float :=
  let (int_part, s1) := PyStr.span PyStr.isdigit s in
  let (frac_part, s2) :=
    match s1 with
    | String c s1' =>
        if Ascii.eqb c "." then PyStr.span PyStr.isdigit s1'
        else (EmptyString, s1)
    | EmptyString => (EmptyString, s1)
    end in
  match int_part ++ frac_part with
  | EmptyString => None
  | ds =>
      match parse_exponent s2 with
      | Some e =>
          Some (of_decimal neg (PyStr.digits_value ds)
                  (e - Z.of_nat (String.length frac_part)))
      | None => None
      end
  end.

(** [float(s)] for a string [s]; the only exception is [ValueError]. *)
Definition of_string (s : string) : result float :=
  match strip_underscores "000" s with
  | None => Raise ValueError
  | Some t =>
      let (neg, u) := read_sign (PyStr.rstrip isspace (PyStr.lstrip isspace t)) in
      match parse_decimal neg u with
      | Some x => Ok x
      | None =>
          match parse_inf_or_nan neg u with
          | Some x => Ok x
          | None => Raise ValueError
          end
      end
  end.

(** *** [math.ceil(x)] *)

(** The least integer not below [m * 2 ^ e]. *)
Definition ceil_scaled (m e : Z) : Z :=
  if 0 <=? e then m * 2 ^ e else - ((- m) / 2 ^ (- e)).

Definition ceil (x : float) : result Z :=
  match x with
  | S754_nan => Raise ValueError
  | S754_infinity _ => Raise OverflowError
  | S754_zero _ => Ok 0
  | S754_finite s m e => Ok (ceil_scaled (if s then Zneg m else Zpos m) e)
  end.

(** *** [round(x, 2)] *)

(** [n / d] rounded to the nearest integer, ties to the even one. *)
Definition round_half_even (n : Z) (d : Z) : Z :=
  let q := n / d in
  let r := n mod d in
  match 2 * r ?= d with
  | Lt => q
  | Gt => q + 1
  | Eq => if Z.even q then q else q + 1
  end.

(** The exact value of [x] is rounded to a whole number of hundredths and
    that decimal is read back as a float; zeros, infinities and NaN are
    returned as they are. *)
Definition round2 (x : float) : float :=
  match x with
  | S754_finite s m e =>
      if 0 <=? e then x
      else of_ratio s (round_half_even (Zpos m * 100) (2 ^ (- e))) 100
  | _ => x
  end.

(** *** [repr(x)], which is also [str(x)] *)

(** [10 ^ k <= n / d], for any integer [k]. *)
Definition pow10_le (k : Z) (n d : Z) : bool :=
  if 0 <=? k then d * 10 ^ k <=? n else d <=? n * 10 ^ (- k).

(** The decimal exponent of [n / d]: the [k] with
    [10 ^ k <= n / d < 10 ^ (k + 1)], searched from the estimate [k]. *)
Fixpoint decimal_exponent (fuel : nat) (k : Z) (n d : Z) : Z :=
  match fuel with
  | O => k
  | S fuel' =>
      if negb (pow10_le k n d) then decimal_exponent fuel' (k - 1) n d
      else if pow10_le (k + 1) n d then decimal_exponent fuel' (k + 1) n d
      else k
  end.

Fixpoint strip_zeros (fuel : nat) (c q : Z) : Z * Z :=
  match fuel with
  | O => (c, q)
  | S fuel' =>
      if (c mod 10 =? 0) && negb (c =? 0) then strip_zeros fuel' (c / 10) (q + 1)
      else (c, q)
  end.

(** Whether the decimal [c * 10 ^ q] reads back as the float [x]. *)
Definition reads_back (x : float) (c q : Z) : bool :=
  eqb (of_decimal false c q) x.

(** The shortest decimal [c * 10 ^ q] that reads back as the positive
    float [x = n / d], the nearest to [x] among those of that length.
    Lengths [len], [len + 1], ... are tried; seventeen digits always read
    back. *)
Fixpoint shortest (fuel : nat) (len : Z) (x : float) (k n d : Z) : Z * Z :=
  let q := k - len + 1 in
  let sn := if 0 <=? q then n else n * 10 ^ (- q) in
  let sd := if 0 <=? q then d * 10 ^ q else d in
  let lo := sn / sd in
  let hi := if sn mod sd =? 0 then lo else lo + 1 in
  let near := if 2 * (sn mod sd) <=? sd then lo else hi in
  let far := if 2 * (sn mod sd) <=? sd then hi else lo in
  match fuel with
  | O => (near, q)
  | S fuel' =>
      if reads_back x near q then (near, q)
      else if reads_back x far q then (far, q)
      else shortest fuel' (len + 1) x k n d
  end.

Definition zeros (n : Z) : string := string_of_list_ascii (repeat "0"%char (Z.to_nat n)).

(** The digits [ds] with the decimal point after [decpt] digits, laid out
    as [repr] does: plain notation for [-4 < decpt <= 16], exponent
    notation with at least two exponent digits otherwise. *)
Definition layout (ds : string) (decpt : Z) : string :=
  let len := Z.of_nat (String.length ds) in
  if (decpt <=? -4) || (16 <? decpt) then
    let e := decpt - 1 in
    let mant :=
      match ds with
      | String c EmptyString => ds
      | String c rest => String c ("." ++ rest)
      | EmptyString => ds
      end in
    let ex := PyStr.of_int (Z.abs e) in
    mant ++ "e" ++ (if e <? 0 then "-" else "+")
         ++ (if Z.abs e <? 10 then "0" else "") ++ ex
  else if decpt <=? 0 then "0." ++ zeros (- decpt) ++ ds
  else if len <=? decpt then ds ++ zeros (decpt - len) ++ ".0"
  else substring 0 (Z.to_nat decpt) ds ++ "."
       ++ substring (Z.to_nat decpt) (Z.to_nat (len - decpt)) ds.

Definition repr (x : float) : string :=
  match x with
  | S754_nan => "nan"
  | S754_infinity s => if s then "-inf" else "inf"
  | S754_zero s => if s then "-0.0" else "0.0"
  | S754_finite s m e =>
      let n := if 0 <=? e then Zpos m * 2 ^ e else Zpos m in
      let d := if 0 <=? e then 1 else 2 ^ (- e) in
      let k := decimal_exponent 4 ((Z.log2 n - Z.log2 d) * 30103 / 100000) n d in
      let (c0, q0) := shortest 16 1 (SFabs x) k n d in
      let (c, q) := strip_zeros 400 c0 q0 in
      let ds := PyStr.of_int c in
      (if s then "-" else "") ++ layout ds (Z.of_nat (String.length ds) + q)
  end.

(** *** [math.log] *)

(** The C library's [log] is modelled as the correctly rounded natural
    logarithm.  For a positive [x = m * 2 ^ e] write [x = y * 2 ^ k] with
    [3/4 <= y < 3/2] and [z = |y - 1| / (y + 1)]; then [ln x] is
    [k * ln 2 + 2 * atanh z] for [y >= 1] and [k * ln 2 - 2 * atanh z]
    for [y < 1], and [ln 2 = 2 * atanh (1/3)].  The series of [atanh] is
    summed in fixed point, in units of [2 ^ (- fbits)], rounding down for
    a lower bound and up for an upper bound: the enclosure is far narrower
    than the spacing of the floats. *)

Definition fbits : Z := 256.
Definition funit : Z := 2 ^ fbits.

Definition div_down (n d : Z) : Z := n / d.
Definition div_up (n d : Z) : Z := - ((- n) / d).

(** [n / funit], rounded down and rounded up. *)
Definition scale_down (n : Z) : Z := Z.shiftr n fbits.
Definition scale_up (n : Z) : Z := - Z.shiftr (- n) fbits.

(** Bounds of the sum of [z2 ^ j / (2 (i + j) - 1)] over the [n] indices
    [j < n], for [z2] between [fst z2] and [snd z2]. *)
Fixpoint atanh_horner (n : nat) (i : positive) (z2 : Z * Z) : Z * Z :=
  match n with
  | O => (0, 0)
  | S n' =>
      let (lo, hi) := atanh_horner n' (Pos.succ i) z2 in
      (div_down funit (Zpos (2 * i - 1)) + scale_down (fst z2 * lo),
       div_up funit (Zpos (2 * i - 1)) + scale_up (snd z2 * hi))
  end.

Definition atanh_terms : nat := 84.

(** Bounds of [atanh (a / b)] for [0 <= a / b <= 1/3]; the terms left out
    add up to less than one unit. *)
Definition atanh_bounds (a b : Z) : Z * Z :=
  let zlo := div_down (a * funit) b in
  let zhi := div_up (a * funit) b in
  let z2 := (scale_down (zlo * zlo), scale_up (zhi * zhi)) in
  let (lo, hi) := atanh_horner atanh_terms 1 z2 in
  (scale_down (zlo * lo), scale_up (zhi * hi) + 1).

Definition ln2_bounds : Z * Z :=
  let (lo, hi) := atanh_bounds 1 3 in (2 * lo, 2 * hi).

(** Bounds of [ln (m * 2 ^ e)]. *)
Definition ln_bounds (m : positive) (e : Z) : Z * Z :=
  let d := Z.log2 (Zpos m) in
  let big := 3 * 2 ^ d <=? 2 * Zpos m in
  let j := if big then d + 1 else d in
  let k := e + j in
  let (alo, ahi) := atanh_bounds (Z.abs (Zpos m - 2 ^ j)) (Zpos m + 2 ^ j) in
  let (llo, lhi) := ln2_bounds in
  let klo := if 0 <=? k then k * llo else k * lhi in
  let khi := if 0 <=? k then k * lhi else k * llo in
  if big then (klo - 2 * ahi, khi - 2 * alo)
  else (klo + 2 * alo, khi + 2 * ahi).

(** C's [log] on the positive finite float [m * 2 ^ e]. *)
Definition libm_log (m : positive) (e : Z) : float :=
  binary_normalize prec emax (fst (ln_bounds m e)) (- fbits) false.

(** [math.log(x)] with one argument: a [ValueError] outside the domain. *)
Definition log1 (x : float) : result float :=
  match x with
  | S754_nan => Ok x
  | S754_infinity false => Ok x
  | S754_finite false m e => Ok (libm_log m e)
  | _ => Raise ValueError
  end.

(** [math.log(x, base)]: the quotient of the two logarithms, computed in
    that order. *)
Definition log (x base : float) : result float :=
  num <- log1 x ;;
  den <- log1 base ;;
  div num den.

End PyFloat.

(** ** Regular expressions *)

Module Re.

Section Backtracking.
Context {R : Type}.

(** [\d+] then the continuation [k]: the longest run of digits is tried
    first, then the shorter ones.  [acc] is the run matched so far. *)
Fixpoint digits (s : string) (acc : string)
         (k : string -> string -> option R) : option R :=
  match s with
  | String c s' =>
      if PyStr.isdigit c then
        let acc' := acc ++ String c EmptyString in
        match digits s' acc' k with
        | Some r => Some r
        | None => k acc' s'
        end
      else None
  | EmptyString => None
  end.

(** [\d+(?:\.\d+)?] then [k]: the optional part is tried before its
    absence. *)
Definition number (s : string) (k : string -> string -> option R) : option R :=
  digits s EmptyString (fun int_part rest =>
    let with_fraction :=
      match rest with
      | String c rest' =>
          if Ascii.eqb c "." then
            digits rest' EmptyString (fun frac_part rest'' =>
              k (int_part ++ "." ++ frac_part) rest'')
          else None
      | EmptyString => None
      end in
    match with_fraction with
    | Some r => Some r
    | None => k int_part rest
    end).
End Backtracking.

(** [re.match(r"(\d+(?:\.\d+)?)SEP(\d+(?:\.\d+)?)", s)] for a separator
    character [sep]: the two groups of the match at the start of [s]. *)
Definition match_pair (sep : ascii) (s : string) : option (string * string) :=
  number s (fun g1 rest =>
    match rest with
    | String c rest' =>
        if Ascii.eqb c sep then number rest' (fun g2 _ => Some (g1, g2))
        else None
    | EmptyString => None
    end).

End Re.

(** ** The plugin *)

Module WhenToExpect.

Import PyFloat.

(** [try: c except ValueError: h] *)
Definition except_ValueError {A : Type} (c : result A) (h : result A) : result A :=
  match c with
  | Raise ValueError => h
  | _ => c
  end.

(** [all(matches.groups())] *)
Definition all_groups (g : string * string) : bool :=
  negb (String.eqb (fst g) "") && negb (String.eqb (snd g) "").

Definition fraction_to_float (fraction : string) : result float :=
  except_ValueError (of_string fraction)
    (match Re.match_pair "/" fraction with
     | Some (g1, g2) =>
         if all_groups (g1, g2) then
           except_ValueError
             (n <- of_string g1 ;;
              d <- of_string g2 ;;
              div n d)
             (Ok pzero)
         else Ok pzero
     | None =>
         match Re.match_pair ":" fraction with
         | Some (g1, g2) =>
             if all_groups (g1, g2) then
               except_ValueError
                 (a <- of_string g1 ;;
                  a' <- of_string g1 ;;
                  b <- of_string g2 ;;
                  div a (add a' b))
                 (Ok pzero)
             else Ok pzero
         | None => Ok pzero
         end
     end).

Record ResultItem : Set := { Title : string; IcoPath : string }.

Definition set_Title (r : ResultItem) (t : string) : ResultItem :=
  {| Title := t; IcoPath := IcoPath r |}.

Definition prompt : string :=
  "Enter a probability (n/m) or odds (n:m) and optionally how sure "
  ++ "you want to be that it occurs (default: 0.5)!".

(** The text in brackets after the count. *)
Definition precise_output (expected_trials_precise : float) : string :=
  if negb (String.eqb (repr expected_trials_precise) "0")
  then PyStr.rstrip_chars "0." (repr expected_trials_precise)
  else "0".

Definition bracketed (expected_trials_output : string) (expected_trials : Z) : string :=
  if negb (existsb (String.eqb expected_trials_output)
                   [PyStr.of_int expected_trials; "-"])
  then " (" ++ expected_trials_output ++ ")"
  else "".

(** The first two statements of the [try] of [query]:
    [expected_trials_precise] and [expected_trials]. *)
Definition expected_trials (probability confidence_level : float) : result (float * Z) :=
  x <- log (sub one confidence_level) (sub one probability) ;;
  let expected_trials_precise := round2 x in
  expected_trials <- ceil expected_trials_precise ;;
  Ok (expected_trials_precise, expected_trials).

(** [try] or [tries]. *)
Definition tries_word (expected_trials_precise : float) : string :=
  if negb (eqb expected_trials_precise one) then "tries" else "try".

(** The output formatting of [query]. *)
Definition format_title (confidence_level expected_trials_precise : float)
           (expected_trials : Z) : string :=
  let expected_trials_output := precise_output expected_trials_precise in
  let tries := tries_word expected_trials_precise in
  let expected_trials_output := bracketed expected_trials_output expected_trials in
  "Event is expected with a probability of "
  ++ repr (round2 (mul confidence_level hundred)) ++ " % "
  ++ "after " ++ PyStr.of_int expected_trials ++ expected_trials_output
  ++ " " ++ tries ++ ".".

(** The body of the [try] of [query]: the title on success. *)
Definition expected_title (probability confidence_level : float) : result string :=
  pn <- expected_trials probability confidence_level ;;
  Ok (format_title confidence_level (fst pn) (snd pn)).

(** [try: ... except (ValueError, ZeroDivisionError): ...] around the
    computation of the title. *)
Definition title_or_invalid (r : ResultItem) (c : result string) : result ResultItem :=
  match c with
  | Ok t => Ok (set_Title r t)
  | Raise ValueError | Raise ZeroDivisionError => Ok (set_Title r "Invalid input(s)!")
  | Raise e => Raise e
  end.

Definition initial_result : ResultItem :=
  {| Title := prompt; IcoPath := "icon/expect.png" |}.

Definition query (query : string) : result (list ResultItem) :=
  let query_parts := PyStr.split (PyStr.strip query) in
  let result := initial_result in
  match query_parts with
  | [] => Ok [result]
  | p :: rest =>
      match rest with
      | [] | [_] =>
          probability <- fraction_to_float p ;;
          confidence_level <-
            match rest with
            | c :: _ => fraction_to_float c
            | [] => Ok half
            end ;;
          result <- title_or_invalid result
                      (expected_title probability confidence_level) ;;
          Ok [result]
      | _ => Ok [set_Title result "Too many inputs!"]
      end
  end.

End WhenToExpect.

(** ** The vocabulary of the statements *)

Module Tokens.

Import PyFloat.

Fixpoint all (f : ascii -> bool) (s : string) : bool :=
  match s with
  | String c s' => f c && all f s'
  | EmptyString => true
  end.

Fixpoint has (c : ascii) (s : string) : bool :=
  match s with
  | String c' s' => Ascii.eqb c c' || has c s'
  | EmptyString => false
  end.

(** A non-empty run of digits: what [\d+] matches in full. *)
Definition is_digits (s : string) : bool :=
  match s with
  | EmptyString => false
  | _ => all PyStr.isdigit s
  end.

(** A non-negative decimal, as [\d+(?:\.\d+)?] matches it in full: the
    digits before the point and, if there is a point, the digits after. *)
Record decimal : Set := { int_digits : string; frac_digits : option string }.

Definition wf (d : decimal) : bool :=
  is_digits (int_digits d)
  && match frac_digits d with
     | Some f => is_digits f
     | None => true
     end.

Definition text (d : decimal) : string :=
  match frac_digits d with
  | Some f => int_digits d ++ "." ++ f
  | None => int_digits d
  end.

Definition frac_text (d : decimal) : string :=
  match frac_digits d with
  | Some f => f
  | None => EmptyString
  end.

(** The float nearest to the decimal. *)
Definition value (d : decimal) : float :=
  of_decimal false (PyStr.digits_value (int_digits d ++ frac_text d))
             (- Z.of_nat (String.length (frac_text d))).

(** The string is empty or starts with a character that is neither a digit
    nor a point. *)
Definition plain_start (s : string) : bool :=
  match s with
  | String c _ => negb (PyStr.isdigit c) && negb (Ascii.eqb c ".")
  | EmptyString => true
  end.

(** The characters that occur in no string [float] accepts. *)
Definition foreign (c : ascii) : bool :=
  negb (PyStr.isdigit c || isspace c
        || has (lower c) "_+-.einfaty").

(** The string starts with a character of [f]. *)
Definition starts_with (f : ascii -> bool) (s : string) : bool :=
  match s with
  | String c _ => f c
  | EmptyString => false
  end.

Definition nospace (c : ascii) : bool := negb (PyStr.isspace c).

(** The characters of a non-negative decimal. *)
Definition numeric_char (c : ascii) : bool := PyStr.isdigit c || Ascii.eqb c ".".

(** The characters of a decimal literal of [float], after the sign. *)
Definition decimal_char (c : ascii) : bool :=
  PyStr.isdigit c || has c ".eE+-".

(** The continuation [k] of a match refuses every rest that starts with a
    character of [f]. *)
Definition refuses {R : Type} (f : ascii -> bool)
           (k : string -> string -> option R) : Prop :=
  forall g c r, f c = true -> k g (String c r) = None.

(** A separator of [match_pair]: neither a digit nor the point. *)
Definition separator (c : ascii) : bool :=
  negb (PyStr.isdigit c) && negb (Ascii.eqb c ".").

(** A token of [split]: not empty and free of spaces. *)
Definition is_token (s : string) : bool :=
  match s with
  | EmptyString => false
  | _ => all (fun c => negb (PyStr.isspace c)) s
  end.

(** [x] is a float above zero and below one. *)
Definition in_unit_interval (x : float) : Prop :=
  ltb pzero x = true /\ ltb x one = true.

(** The failures of the formula: a probability or a confidence equal to
    one, [1 - p] at or below zero, or a zero logarithm to divide by. *)
Definition numeric_failure (p c : float) : bool :=
  eqb p one || eqb c one || leb (sub one p) pzero
  || match log1 (sub one c), log1 (sub one p) with
     | Ok _, Ok den => eqb den pzero
     | _, _ => false
     end.

(** The confidence level [query] uses for the tokens after the first. *)
Definition confidence_of (rest : list string) : result float :=
  match rest with
  | c :: _ => WhenToExpect.fraction_to_float c
  | [] => Ok half
  end.

(** The item [query] returns with the title [t]. *)
Definition item (t : string) : WhenToExpect.ResultItem :=
  {| WhenToExpect.Title := t; WhenToExpect.IcoPath := "icon/expect.png" |}.

(** The float a decimal literal denotes, for the statements. *)
Definition lit (s : string) : float :=
  match of_string s with
  | Ok x => x
  | Raise _ => nan
  end.

End Tokens.

Import PyFloat WhenToExpect Tokens.

(** * Evaluations *)

Ltac by_evaluation := vm_compute; reflexivity.

(** C1: [fraction_to_float] does not always return a float: on a fraction
    with a zero denominator the division raises [ZeroDivisionError], which
    the handler for [ValueError] does not catch.  A token that matches no
    pattern does give [0.0]. *)
Theorem fraction_to_float_zero_denominator :
  fraction_to_float "1/0" = Raise ZeroDivisionError
  /\ fraction_to_float "0:0" = Raise ZeroDivisionError
  /\ fraction_to_float "garbage" = Ok pzero.
Proof. repeat apply conj; by_evaluation. Qed.

(** C3: [query] does not always return an item: the parser is called
    outside the [try], so its [ZeroDivisionError] leaves [query]; and
    [OverflowError], raised by [math.ceil] on an infinity, is not among the
    exceptions the [try] catches. *)
Theorem query_raises :
  query "1/0" = Raise ZeroDivisionError
  /\ query "0.5 1/0" = Raise ZeroDivisionError
  /\ query "0.5 -inf" = Raise OverflowError
  /\ query "1 2 3" = Ok [item "Too many inputs!"].
Proof. repeat apply conj; by_evaluation. Qed.

(** C6: the query [1/6 0.95] succeeds with 17 tries, the precise value
    16.43 and 95.0 per cent. *)
Theorem query_dice :
  query "1/6 0.95"
  = Ok [item "Event is expected with a probability of 95.0 % after 17 (16.43) tries."]
  /\ (p <- fraction_to_float "1/6" ;; c <- fraction_to_float "0.95" ;;
      expected_trials p c) = Ok (lit "16.43", 17).
Proof. repeat apply conj; by_evaluation. Qed.

(** C8: a precise value equal to its own ceiling can still be shown in
    brackets: 10.0 is printed as [10.0], loses its zeros and its point to
    [rstrip] and is left as [1], which differs from [10]; 0.0 is left as the
    empty string. *)
Theorem query_bracket_after_whole_count :
  query "0.5 0.9990234375"
  = Ok [item "Event is expected with a probability of 99.9 % after 10 (1) tries."]
  /\ expected_trials (lit "0.5") (lit "0.9990234375") = Ok (of_Z 10, 10)
  /\ query "-1 0"
     = Ok [item "Event is expected with a probability of 0.0 % after 0 () tries."]
  /\ expected_trials (lit "-1") (lit "0") = Ok (of_Z 0, 0).
Proof. repeat apply conj; by_evaluation. Qed.


(** * The counting of the trials *)

Lemma eqb_one (x : float) : eqb x one = true -> x = one.
Proof.
  unfold eqb, SFeqb, one. change (of_Z 1) with (S754_finite false 4503599627370496 (-52)).
  destruct x as [s | s | | s m e]; cbv beta iota delta [SFcompare];
    try discriminate; destruct s; try discriminate.
  destruct (Z.compare_spec e (-52)) as [He | He | He]; try discriminate.
  destruct (Pos.compare_cont Eq m 4503599627370496) eqn:Hm; try discriminate.
  apply Pos.compare_eq in Hm. intros _. subst. reflexivity.
Qed.

Lemma log1_raises (x : float) (e : exn) : log1 x = Raise e -> e = ValueError.
Proof.
  destruct x as [s | [|] | | [|] m ex]; simpl; intros H; inversion H; reflexivity.
Qed.

Lemma log1_nonpositive (x : float) : leb x pzero = true -> log1 x = Raise ValueError.
Proof.
  destruct x as [s | [|] | | [|] m e]; simpl; try reflexivity; discriminate.
Qed.

(** [math.log] raises [ValueError] as soon as its base is at or below zero. *)
Lemma log_base_nonpositive (x base : float) :
  leb base pzero = true -> log x base = Raise ValueError.
Proof.
  intros H. unfold log, bind.
  destruct (log1 x) as [num | e] eqn:Hx.
  - rewrite (log1_nonpositive base H). reflexivity.
  - rewrite (log1_raises x e Hx). reflexivity.
Qed.

Lemma expected_trials_failure (p c : float) :
  numeric_failure p c = true ->
  expected_trials p c = Raise ValueError
  \/ expected_trials p c = Raise ZeroDivisionError.
Proof.
  unfold numeric_failure. rewrite !orb_true_iff. intros [[[Hp | Hc] | Hle] | Hdiv].
  - apply eqb_one in Hp. subst p. left. unfold expected_trials.
    rewrite log_base_nonpositive; reflexivity.
  - apply eqb_one in Hc. subst c. left. reflexivity.
  - left. unfold expected_trials. rewrite (log_base_nonpositive _ _ Hle). reflexivity.
  - right. unfold expected_trials, log, bind.
    destruct (log1 (sub one c)) as [num | e]; try discriminate.
    destruct (log1 (sub one p)) as [den | e]; try discriminate.
    unfold div. rewrite Hdiv. reflexivity.
Qed.

(** C4: a query of one or two tokens whose parsed probability [p] and
    confidence [c] meet a numeric failure of the formula ([p == 1],
    [c == 1], [1 - p <= 0], or a zero logarithm as divisor) gets the one
    item titled [Invalid input(s)!]. *)
Theorem query_invalid_inputs (q t : string) (rest : list string) (p c : float) :
  PyStr.split (PyStr.strip q) = t :: rest ->
  (List.length rest <= 1)%nat ->
  fraction_to_float t = Ok p ->
  confidence_of rest = Ok c ->
  numeric_failure p c = true ->
  query q = Ok [item "Invalid input(s)!"].
Proof.
  intros Hsplit Hlen Hp Hc Hfail. unfold query. rewrite Hsplit.
  assert (Hbody : (probability <- fraction_to_float t ;;
                   confidence_level <- confidence_of rest ;;
                   result <- title_or_invalid initial_result
                               (expected_title probability confidence_level) ;;
                   Ok [result]) = Ok [item "Invalid input(s)!"]).
  { rewrite Hp, Hc. simpl. unfold expected_title.
    destruct (expected_trials_failure p c Hfail) as [H | H]; rewrite H; reflexivity. }
  destruct rest as [| c1 [| c2 rest']]; try exact Hbody.
  simpl in Hlen. lia.
Qed.

Lemma query_invalid_inputs_witness :
  numeric_failure (lit "1") (lit "0.5") = true
  /\ query "1 0.5" = Ok [item "Invalid input(s)!"].
Proof.
  split; [by_evaluation |].
  apply (query_invalid_inputs "1 0.5" "1" ["0.5"] (lit "1") (lit "0.5"));
    [reflexivity | simpl; lia | by_evaluation | by_evaluation | by_evaluation].
Defined.

Lemma ceil_scaled_positive (m : positive) (e : Z) : 1 <= ceil_scaled (Zpos m) e.
Proof.
  unfold ceil_scaled. destruct (Z.leb_spec 0 e) as [He | He].
  - assert (0 < 2 ^ e) by (apply Z.pow_pos_nonneg; lia). nia.
  - assert (Hd : 0 < 2 ^ (- e)) by (apply Z.pow_pos_nonneg; lia).
    assert (- Zpos m / 2 ^ (- e) < 0) by (apply Z.div_lt_upper_bound; lia).
    lia.
Qed.

(** C2, as the code has it: for [p] and [c] strictly between 0 and 1 the
    count is at least 1 whenever the precise value, rounded to two places,
    is above zero. *)
Theorem trials_at_least_one (p c precise : float) (n : Z) :
  in_unit_interval p ->
  in_unit_interval c ->
  expected_trials p c = Ok (precise, n) ->
  ltb pzero precise = true ->
  1 <= n.
Proof.
  intros _ _ H Hpos. unfold expected_trials, bind in H.
  destruct (log (sub one c) (sub one p)) as [x | e]; try discriminate.
  destruct (ceil (round2 x)) as [k | e] eqn:Hceil; try discriminate.
  inversion H; subst; clear H.
  destruct (round2 x) as [s | s | | s m e]; simpl in Hceil; try discriminate.
  destruct s; try discriminate.
  inversion Hceil. apply ceil_scaled_positive.
Qed.

Lemma trials_at_least_one_witness :
  in_unit_interval (lit "0.5") /\ in_unit_interval (lit "0.9")
  /\ expected_trials (lit "0.5") (lit "0.9") = Ok (lit "3.32", 4)
  /\ 1 <= 4.
Proof.
  assert (Hp : in_unit_interval (lit "0.5")) by (split; by_evaluation).
  assert (Hc : in_unit_interval (lit "0.9")) by (split; by_evaluation).
  assert (Ht : expected_trials (lit "0.5") (lit "0.9") = Ok (lit "3.32", 4))
    by by_evaluation.
  split; [exact Hp | split; [exact Hc | split; [exact Ht |]]].
  apply (trials_at_least_one (lit "0.5") (lit "0.9") (lit "3.32") 4 Hp Hc Ht).
  by_evaluation.
Defined.

(** C2, as the claim has it, fails: for [p = 0.5] and [c = 0.001], both
    strictly between 0 and 1, the precise value rounds to 0.0 and the count
    is 0. *)
Lemma trials_below_one :
  in_unit_interval (lit "0.5") /\ in_unit_interval (lit "0.001")
  /\ expected_trials (lit "0.5") (lit "0.001") = Ok (pzero, 0)
  /\ ~ (1 <= 0).
Proof.
  split; [split; by_evaluation | split; [split; by_evaluation | split]].
  - by_evaluation.
  - lia.
Qed.

(** C9: whatever [query] returns is one item whose icon is
    [icon/expect.png]. *)
Theorem query_icon (q : string) (items : list ResultItem) :
  query q = Ok items ->
  exists t, items = [{| Title := t; IcoPath := "icon/expect.png" |}].
Proof.
  unfold query. destruct (PyStr.split (PyStr.strip q)) as [| t rest].
  - intros H. inversion H. eexists. reflexivity.
  - assert (Hbody : forall conf,
               (probability <- fraction_to_float t ;;
                confidence_level <- conf ;;
                result <- title_or_invalid initial_result
                            (expected_title probability confidence_level) ;;
                Ok [result]) = Ok items ->
               exists t, items = [{| Title := t; IcoPath := "icon/expect.png" |}]).
    { intros conf. unfold bind.
      destruct (fraction_to_float t); try discriminate.
      destruct conf as [c | e]; try discriminate.
      destruct (expected_title a c) as [title | e]; [| destruct e]; simpl;
        intros H; inversion H; eexists; reflexivity. }
    destruct rest as [| c1 [| c2 rest']]; try apply Hbody.
    intros H. inversion H. eexists. reflexivity.
Qed.

Lemma query_icon_witness :
  query "" = Ok [item prompt]
  /\ exists t, [item prompt] = [{| Title := t; IcoPath := "icon/expect.png" |}].
Proof.
  split; [reflexivity | apply (query_icon ""); reflexivity].
Defined.

(** * Strings *)

Lemma app_nil_r (s : string) : s ++ "" = s.
Proof. induction s as [| c s IH]; simpl; [reflexivity | rewrite IH; reflexivity]. Qed.

Lemma app_assoc (a b c : string) : (a ++ b) ++ c = a ++ (b ++ c).
Proof. induction a as [| x a IH]; simpl; [reflexivity | rewrite IH; reflexivity]. Qed.

Lemma all_app (f : ascii -> bool) (a b : string) :
  all f (a ++ b) = all f a && all f b.
Proof.
  induction a as [| c a IH]; simpl; [reflexivity |].
  rewrite IH, andb_assoc. reflexivity.
Qed.

Lemma all_impl (f g : ascii -> bool) (s : string) :
  (forall c, f c = true -> g c = true) -> all f s = true -> all g s = true.
Proof.
  intros Hfg. induction s as [| c s IH]; simpl; [reflexivity |].
  rewrite !andb_true_iff. intros [Hc Hs]. split; [apply Hfg, Hc | apply IH, Hs].
Qed.

Lemma has_app (c : ascii) (a b : string) : has c (a ++ b) = has c a || has c b.
Proof.
  induction a as [| x a IH]; simpl; [reflexivity |].
  rewrite IH, orb_assoc. reflexivity.
Qed.

Lemma all_has (f : ascii -> bool) (c : ascii) (s : string) :
  all f s = true -> f c = false -> has c s = false.
Proof.
  intros Hs Hc. induction s as [| x s IH]; simpl in *; [reflexivity |].
  apply andb_true_iff in Hs. destruct Hs as [Hx Hs].
  rewrite (IH Hs), orb_false_r.
  destruct (Ascii.eqb_spec c x) as [-> | _]; [congruence | reflexivity].
Qed.

Lemma is_digits_inv (s : string) :
  is_digits s = true ->
  exists c s', s = String c s' /\ PyStr.isdigit c = true /\ all PyStr.isdigit s' = true.
Proof.
  destruct s as [| c s']; simpl; [discriminate |].
  rewrite andb_true_iff. intros [Hc Hs]. exists c, s'. auto.
Qed.

Lemma is_digits_all (s : string) : is_digits s = true -> all PyStr.isdigit s = true.
Proof. destruct s; [discriminate | exact (fun H => H)]. Qed.

(** ** [span], [lstrip] and [rstrip] *)

Lemma span_app (f : ascii -> bool) (a b : string) :
  all f a = true -> starts_with f b = false -> PyStr.span f (a ++ b) = (a, b).
Proof.
  intros Ha Hb. induction a as [| c a IH]; simpl in *.
  - destruct b as [| c b]; simpl in *; [reflexivity | rewrite Hb; reflexivity].
  - apply andb_true_iff in Ha. destruct Ha as [Hc Ha].
    rewrite Hc, (IH Ha). reflexivity.
Qed.

Lemma lstrip_start (f : ascii -> bool) (s : string) :
  starts_with f s = false -> PyStr.lstrip f s = s.
Proof. destruct s as [| c s]; simpl; [reflexivity | intros ->; reflexivity]. Qed.

Lemma rstrip_last (f : ascii -> bool) (s : string) (c : ascii) :
  f c = false -> PyStr.rstrip f (s ++ String c "") = s ++ String c "".
Proof.
  intros Hc. induction s as [| x s IH]; simpl.
  - rewrite Hc. reflexivity.
  - rewrite IH. destruct s; reflexivity.
Qed.

Lemma rstrip_all (f : ascii -> bool) (s : string) :
  all (fun c => negb (f c)) s = true -> PyStr.rstrip f s = s.
Proof.
  induction s as [| x s IH]; simpl; [reflexivity |].
  rewrite andb_true_iff, negb_true_iff. intros [Hx Hs].
  rewrite (IH Hs). destruct s; [rewrite Hx |]; reflexivity.
Qed.

(** ** [split] *)

Lemma split_aux_tokens (s cur t : string) :
  all nospace cur = true -> In t (PyStr.split_aux cur s) -> is_token t = true.
Proof.
  revert cur. induction s as [| c s IH]; intros cur Hcur; simpl.
  - destruct cur; simpl; [tauto |]. intros [<- | []]. exact Hcur.
  - destruct (PyStr.isspace c) eqn:Hc.
    + destruct cur; [apply IH; reflexivity |].
      intros [<- | Hin]; [exact Hcur | apply (IH EmptyString); [reflexivity | exact Hin]].
    + apply IH. rewrite all_app, Hcur. simpl. unfold nospace. rewrite Hc. reflexivity.
Qed.

(** The tokens of [split] are not empty and hold no space. *)
Lemma split_tokens (s t : string) : In t (PyStr.split s) -> is_token t = true.
Proof. apply split_aux_tokens. reflexivity. Qed.

Lemma split_aux_run (t rest cur : string) :
  all nospace t = true ->
  PyStr.split_aux cur (t ++ rest) = PyStr.split_aux (cur ++ t) rest.
Proof.
  revert cur. induction t as [| c t IH]; intros cur Ht; simpl.
  - rewrite app_nil_r. reflexivity.
  - simpl in Ht. apply andb_true_iff in Ht. destruct Ht as [Hc Ht].
    unfold nospace in Hc. apply negb_true_iff in Hc. rewrite Hc.
    rewrite (IH _ Ht), app_assoc. reflexivity.
Qed.

Lemma is_token_inv (t : string) :
  is_token t = true ->
  exists c t', t = String c t' /\ PyStr.isspace c = false /\ all nospace t = true.
Proof.
  destruct t as [| c t']; [discriminate |]. intros H. exists c, t'.
  split; [reflexivity |]. split; [| exact H].
  simpl in H. apply andb_true_iff in H. apply negb_true_iff, H.
Qed.

(** A token followed by a space and [0.5] splits into the two. *)
Lemma split_token_half (t : string) :
  is_token t = true -> PyStr.split (PyStr.strip (t ++ " 0.5")) = [t; "0.5"].
Proof.
  intros Ht. destruct (is_token_inv t Ht) as (c & t' & -> & Hc & Hall).
  unfold PyStr.strip.
  rewrite lstrip_start by exact Hc.
  change (String c t' ++ " 0.5") with (String c t' ++ " 0." ++ String "5" "").
  rewrite <- app_assoc, rstrip_last by reflexivity.
  rewrite app_assoc. unfold PyStr.split.
  rewrite split_aux_run by exact Hall. reflexivity.
Qed.

Lemma format_title_ending (c precise : float) (n : Z) :
  exists pre,
    format_title c precise n
    = pre ++ (if eqb precise one then " try." else " tries.").
Proof.
  unfold format_title, tries_word.
  exists ("Event is expected with a probability of "
            ++ repr (round2 (mul c hundred)) ++ " % " ++ "after " ++ PyStr.of_int n
            ++ bracketed (precise_output precise) n).
  rewrite !app_assoc. repeat f_equal.
  destruct (eqb precise one); reflexivity.
Qed.

(** C7: a query of exactly one token is computed as the query of that
    token followed by the confidence [0.5]; [0.5] alone gives [after 1 try.]
    with no bracket; and every title ends in [try.] when the precise value
    equals 1 and in [tries.] otherwise. *)
Theorem query_default_confidence (q t : string) :
  PyStr.split (PyStr.strip q) = [t] ->
  query q = query (t ++ " 0.5")
  /\ query "0.5"
     = Ok [item "Event is expected with a probability of 50.0 % after 1 try."]
  /\ forall c precise n, exists pre,
       format_title c precise n
       = pre ++ (if eqb precise one then " try." else " tries.").
Proof.
  intros Hq. split; [| split; [by_evaluation | apply format_title_ending]].
  assert (Ht : is_token t = true).
  { apply (split_tokens (PyStr.strip q)). rewrite Hq. left. reflexivity. }
  unfold query. rewrite Hq, (split_token_half t Ht).
  replace (fraction_to_float "0.5") with (Ok half) by (symmetry; by_evaluation).
  reflexivity.
Qed.

Lemma query_default_confidence_witness :
  PyStr.split (PyStr.strip " 1/6 ") = ["1/6"]
  /\ query " 1/6 " = query "1/6 0.5".
Proof.
  split; [reflexivity |].
  exact (proj1 (query_default_confidence " 1/6 " "1/6" eq_refl)).
Defined.

(** * [float] on strings *)

(** Facts about single characters, by enumeration. *)
Ltac by_cases_on c :=
  destruct c as [[|] [|] [|] [|] [|] [|] [|] [|]]; vm_compute;
  try reflexivity; try discriminate.

Lemma numeric_char_plain (c : ascii) :
  numeric_char c = true ->
  Ascii.eqb c "_" = false /\ isspace c = false
  /\ Ascii.eqb c "-" = false /\ Ascii.eqb c "+" = false.
Proof. by_cases_on c; intros _; repeat apply conj; reflexivity. Qed.

Lemma isdigit_not_point (c : ascii) : PyStr.isdigit c = true -> Ascii.eqb c "." = false.
Proof. by_cases_on c. Qed.

Lemma strip_underscores_none (s : string) (prev : ascii) :
  has "_" s = false -> Ascii.eqb prev "_" = false ->
  strip_underscores prev s = Some s.
Proof.
  revert prev. induction s as [| c s IH]; intros prev Hs Hprev; simpl.
  - rewrite Hprev. reflexivity.
  - change (has "_" (String c s)) with (Ascii.eqb "_" c || has "_" s) in Hs.
    apply orb_false_iff in Hs. destruct Hs as [Hc Hs].
    rewrite Ascii.eqb_sym in Hc. rewrite Hc, Hprev. simpl.
    rewrite (IH c Hs Hc). reflexivity.
Qed.

Lemma text_numeric (d : decimal) : wf d = true -> all numeric_char (text d) = true.
Proof.
  unfold wf, text. rewrite andb_true_iff. intros [Hi Hf].
  assert (Hdig : forall s, is_digits s = true -> all numeric_char s = true).
  { intros s Hs. apply (all_impl PyStr.isdigit); [| apply is_digits_all, Hs].
    intros c Hc. unfold numeric_char. rewrite Hc. reflexivity. }
  destruct (frac_digits d) as [f |]; [| apply Hdig, Hi].
  rewrite all_app, (Hdig _ Hi). simpl. apply Hdig, Hf.
Qed.

Lemma text_starts_with_digit (d : decimal) :
  wf d = true ->
  exists c s, text d = String c s /\ PyStr.isdigit c = true.
Proof.
  unfold wf, text. rewrite andb_true_iff. intros [Hi _].
  destruct (is_digits_inv _ Hi) as (c & s & Hs & Hc & _). rewrite Hs.
  destruct (frac_digits d); eexists; eexists; simpl; split; try reflexivity; exact Hc.
Qed.

Lemma parse_decimal_text (d : decimal) :
  wf d = true -> parse_decimal false (text d) = Some (value d).
Proof.
  intros Hwf. unfold parse_decimal, text, value, frac_text.
  unfold wf in Hwf. apply andb_true_iff in Hwf. destruct Hwf as [Hi Hf].
  destruct (is_digits_inv _ Hi) as (c & s & Hs & Hc & Hall).
  destruct (frac_digits d) as [f |].
  - rewrite (span_app PyStr.isdigit (int_digits d) ("." ++ f))
      by (try apply is_digits_all; assumption || reflexivity).
    simpl.
    rewrite <- (app_nil_r f) at 1.
    rewrite (span_app PyStr.isdigit f "") by (try apply is_digits_all; assumption || reflexivity).
    rewrite Hs. simpl. reflexivity.
  - rewrite <- (app_nil_r (int_digits d)) at 1.
    rewrite (span_app PyStr.isdigit (int_digits d) "")
      by (try apply is_digits_all; assumption || reflexivity).
    rewrite Hs. simpl. rewrite app_nil_r. reflexivity.
Qed.

(** [float] reads a non-negative decimal as the float nearest to it. *)
Lemma of_string_text (d : decimal) : wf d = true -> of_string (text d) = Ok (value d).
Proof.
  intros Hwf. pose proof (text_numeric d Hwf) as Hnum.
  unfold of_string.
  rewrite strip_underscores_none; [| | reflexivity].
  2:{ apply (all_has numeric_char); [exact Hnum | reflexivity]. }
  destruct (text_starts_with_digit d Hwf) as (c & s & Hs & Hc).
  rewrite lstrip_start.
  2:{ rewrite Hs. simpl. apply (numeric_char_plain c).
      unfold numeric_char. rewrite Hc. reflexivity. }
  rewrite rstrip_all.
  2:{ apply (all_impl numeric_char); [| exact Hnum].
      intros x Hx. apply negb_true_iff, (numeric_char_plain x Hx). }
  assert (Hsign : read_sign (text d) = (false, text d)).
  { rewrite Hs. unfold read_sign.
    assert (Hn : numeric_char c = true) by (unfold numeric_char; rewrite Hc; reflexivity).
    destruct (numeric_char_plain c Hn) as (_ & _ & -> & ->). reflexivity. }
  rewrite Hsign, (parse_decimal_text d Hwf). reflexivity.
Qed.

(** ** Strings [float] refuses *)

Lemma foreign_facts (c : ascii) :
  foreign c = true ->
  Ascii.eqb c "_" = false /\ isspace c = false
  /\ Ascii.eqb c "-" = false /\ Ascii.eqb c "+" = false
  /\ decimal_char c = false
  /\ has (lower c) "infinity" = false /\ has (lower c) "nan" = false.
Proof. by_cases_on c; intros _; repeat apply conj; reflexivity. Qed.

Lemma has_cons (c x : ascii) (s : string) :
  has c (String x s) = Ascii.eqb c x || has c s.
Proof. reflexivity. Qed.

Lemma strip_underscores_has (c : ascii) (s t : string) (prev : ascii) :
  Ascii.eqb c "_" = false ->
  strip_underscores prev s = Some t -> has c s = true -> has c t = true.
Proof.
  intros Hc. revert prev t. induction s as [| x s IH]; intros prev t; simpl strip_underscores.
  - discriminate.
  - rewrite has_cons. destruct (Ascii.eqb_spec x "_") as [-> | Hx].
    + rewrite Hc. simpl. destruct (PyStr.isdigit prev); [apply IH | discriminate].
    + destruct (Ascii.eqb prev "_" && negb (PyStr.isdigit x)); [discriminate |].
      destruct (strip_underscores x s) as [t' |] eqn:Ht; [| discriminate].
      simpl. intros Heq. inversion Heq; subst. rewrite has_cons.
      destruct (Ascii.eqb c x); [reflexivity |]. simpl. apply (IH x). exact Ht.
Qed.

Lemma lstrip_has (f : ascii -> bool) (c : ascii) (s : string) :
  f c = false -> has c s = true -> has c (PyStr.lstrip f s) = true.
Proof.
  intros Hc. induction s as [| x s IH]; simpl PyStr.lstrip; [discriminate |].
  destruct (f x) eqn:Hx; [| exact (fun H => H)].
  rewrite has_cons. destruct (Ascii.eqb_spec c x) as [-> | _]; [congruence | exact IH].
Qed.

Lemma rstrip_has (f : ascii -> bool) (c : ascii) (s : string) :
  f c = false -> has c s = true -> has c (PyStr.rstrip f s) = true.
Proof.
  intros Hc. induction s as [| x s IH]; simpl PyStr.rstrip; [discriminate |].
  rewrite has_cons.
  destruct (Ascii.eqb_spec c x) as [<- | _]; simpl.
  - intros _. destruct (PyStr.rstrip f s); [rewrite Hc |]; rewrite has_cons;
      rewrite Ascii.eqb_refl; reflexivity.
  - intros H. specialize (IH H). destruct (PyStr.rstrip f s); [discriminate |].
    rewrite has_cons, IH. apply orb_true_r.
Qed.

Lemma read_sign_has (c : ascii) (s : string) :
  Ascii.eqb c "-" = false -> Ascii.eqb c "+" = false ->
  has c s = true -> has c (snd (read_sign s)) = true.
Proof.
  intros Hm Hp. destruct s as [| x s]; [discriminate |]. unfold read_sign.
  rewrite has_cons.
  destruct (Ascii.eqb_spec x "-") as [-> | _]; [rewrite Hm; exact (fun H => H) |].
  destruct (Ascii.eqb_spec x "+") as [-> | _]; [rewrite Hp; exact (fun H => H) |].
  exact (fun H => H).
Qed.

Lemma span_spec (f : ascii -> bool) (s : string) :
  s = fst (PyStr.span f s) ++ snd (PyStr.span f s)
  /\ all f (fst (PyStr.span f s)) = true.
Proof.
  induction s as [| c s [IH1 IH2]]; simpl; [split; reflexivity |].
  destruct (f c) eqn:Hc; [| split; reflexivity].
  destruct (PyStr.span f s) as [a b]. simpl in *.
  rewrite Hc, IH2, <- IH1. split; reflexivity.
Qed.

Lemma digits_decimal_chars (s : string) :
  all PyStr.isdigit s = true -> all decimal_char s = true.
Proof.
  apply all_impl. intros c Hc. unfold decimal_char. rewrite Hc. reflexivity.
Qed.

Lemma parse_exponent_chars (s : string) (e : Z) :
  parse_exponent s = Some e -> all decimal_char s = true.
Proof.
  destruct s as [| c s]; [reflexivity |]. unfold parse_exponent.
  destruct (Ascii.eqb_spec (lower c) "e") as [Hc | _]; [| discriminate].
  assert (Hdc : decimal_char c = true) by (revert Hc; by_cases_on c).
  pose proof (span_spec PyStr.isdigit (snd (read_sign s))) as [Hs Hall].
  destruct (read_sign s) as [neg s1] eqn:Hsign. simpl in Hs, Hall.
  destruct (PyStr.span PyStr.isdigit s1) as [ds rest]. simpl in Hs, Hall.
  destruct ds as [| d ds]; [discriminate |]. destruct rest; [| discriminate].
  intros _. rewrite app_nil_r in Hs. subst s1.
  simpl all. rewrite Hdc. simpl.
  apply digits_decimal_chars in Hall.
  unfold read_sign in Hsign. destruct s as [| x s]; [inversion Hsign; subst; discriminate |].
  destruct (Ascii.eqb_spec x "-") as [-> | _];
    [inversion Hsign; subst; exact Hall |].
  destruct (Ascii.eqb_spec x "+") as [-> | _];
    [inversion Hsign; subst; exact Hall |].
  inversion Hsign; subst. exact Hall.
Qed.

Lemma parse_decimal_chars (neg : bool) (s : string) (x : float) :
  parse_decimal neg s = Some x -> all decimal_char s = true.
Proof.
  unfold parse_decimal.
  pose proof (span_spec PyStr.isdigit s) as [Hs Hi].
  destruct (PyStr.span PyStr.isdigit s) as [i s1]. simpl in Hs, Hi.
  apply digits_decimal_chars in Hi.
  assert (Hexp : forall s2 fr,
             match i ++ fr with
             | EmptyString => None
             | String a s0 =>
                 match parse_exponent s2 with
                 | Some e => Some (of_decimal neg (PyStr.digits_value (String a s0))
                                     (e - Z.of_nat (String.length fr)))
                 | None => None
                 end
             end = Some x -> all decimal_char s2 = true).
  { intros s2 fr. destruct (i ++ fr); [discriminate |].
    destruct (parse_exponent s2) as [e |] eqn:He; [| discriminate].
    intros _. apply (parse_exponent_chars s2 e He). }
  destruct s1 as [| c s1'].
  - intros H. rewrite Hs, all_app, Hi. reflexivity.
  - destruct (Ascii.eqb_spec c ".") as [-> | _].
    + pose proof (span_spec PyStr.isdigit s1') as [Hs1 Hf].
      destruct (PyStr.span PyStr.isdigit s1') as [fr s2]. simpl in Hs1, Hf.
      apply digits_decimal_chars in Hf.
      intros H. apply Hexp in H.
      rewrite Hs, all_app, Hi. simpl. rewrite Hs1, all_app, Hf. exact H.
    + intros H. apply Hexp in H. rewrite Hs, all_app, Hi. exact H.
Qed.

Lemma lowercase_has (c : ascii) (s : string) :
  has c s = true -> has (lower c) (lowercase s) = true.
Proof.
  induction s as [| x s IH]; simpl lowercase; [discriminate |].
  rewrite !has_cons. destruct (Ascii.eqb_spec c x) as [-> | _].
  - rewrite Ascii.eqb_refl. reflexivity.
  - simpl. intros H. rewrite (IH H). apply orb_true_r.
Qed.

Lemma parse_inf_or_nan_chars (neg : bool) (s : string) (x : float) (c : ascii) :
  parse_inf_or_nan neg s = Some x -> has c s = true ->
  has (lower c) "infinity" = true \/ has (lower c) "nan" = true.
Proof.
  unfold parse_inf_or_nan. intros H Hc. apply lowercase_has in Hc.
  destruct (String.eqb_spec (lowercase s) "inf") as [He | _].
  { rewrite He in Hc. left. revert Hc. generalize (lower c). intros y. by_cases_on y. }
  destruct (String.eqb_spec (lowercase s) "infinity") as [He | _].
  { rewrite He in Hc. left. exact Hc. }
  destruct (String.eqb_spec (lowercase s) "nan") as [He | _]; [| discriminate].
  rewrite He in Hc. right. exact Hc.
Qed.

(** [float] raises [ValueError] on every string that holds a character
    foreign to its literals. *)
Lemma of_string_foreign (c : ascii) (s : string) :
  foreign c = true -> has c s = true -> of_string s = Raise ValueError.
Proof.
  intros Hf Hc. destruct (foreign_facts c Hf) as (Hu & Hsp & Hm & Hp & Hd & Hi & Hn).
  unfold of_string.
  destruct (strip_underscores "000" s) as [t |] eqn:Ht; [| reflexivity].
  pose proof (strip_underscores_has c s t _ Hu Ht Hc) as H1.
  apply (lstrip_has isspace c _ Hsp) in H1.
  apply (rstrip_has isspace c _ Hsp) in H1.
  apply (read_sign_has c _ Hm Hp) in H1.
  destruct (read_sign _) as [neg u]. simpl in H1.
  destruct (parse_decimal neg u) as [x |] eqn:Hdec.
  - apply parse_decimal_chars in Hdec.
    rewrite (all_has decimal_char c u Hdec Hd) in H1. discriminate.
  - destruct (parse_inf_or_nan neg u) as [x |] eqn:Hinf; [| reflexivity].
    destruct (parse_inf_or_nan_chars neg u x c Hinf H1); congruence.
Qed.

(** * The regular expressions *)

Section Backtracking.
Context {R : Type}.
Implicit Types k : string -> string -> option R.

Lemma digits_stop (rest acc : string) k :
  starts_with PyStr.isdigit rest = false -> Re.digits rest acc k = None.
Proof. destruct rest as [| c r]; simpl; [reflexivity | intros ->; reflexivity]. Qed.

(** On a run of digits that the rest does not continue, [\d+] takes the
    whole run when the continuation accepts it there... *)
Lemma digits_run_some (ds rest acc : string) k (r : R) :
  is_digits ds = true -> starts_with PyStr.isdigit rest = false ->
  k (acc ++ ds) rest = Some r ->
  Re.digits (ds ++ rest) acc k = Some r.
Proof.
  revert acc. induction ds as [| c ds IH]; intros acc Hds Hrest Hk; [discriminate |].
  simpl in Hds. apply andb_true_iff in Hds. destruct Hds as [Hc Hall].
  simpl. rewrite Hc. destruct ds as [| c' ds].
  - simpl. rewrite (digits_stop rest _ k Hrest). exact Hk.
  - rewrite (IH (acc ++ String c "")); [reflexivity | exact Hall | exact Hrest |].
    rewrite app_assoc. exact Hk.
Qed.

(** ... and also when the continuation refuses every rest that starts with
    a digit, so that no shorter run can succeed. *)
Lemma digits_run_refused (ds rest acc : string) k :
  is_digits ds = true -> starts_with PyStr.isdigit rest = false ->
  refuses PyStr.isdigit k ->
  Re.digits (ds ++ rest) acc k = k (acc ++ ds) rest.
Proof.
  revert acc. induction ds as [| c ds IH]; intros acc Hds Hrest Hk; [discriminate |].
  simpl in Hds. apply andb_true_iff in Hds. destruct Hds as [Hc Hall].
  simpl. rewrite Hc. destruct ds as [| c' ds].
  - simpl. rewrite (digits_stop rest _ k Hrest). reflexivity.
  - rewrite (IH (acc ++ String c "")) by assumption.
    rewrite app_assoc. simpl.
    destruct (k (acc ++ String c (String c' ds)) rest) eqn:Hlong; [reflexivity |].
    simpl in Hall. apply andb_true_iff in Hall. apply Hk, (proj1 Hall).
Qed.

Lemma plain_start_digit (rest : string) :
  plain_start rest = true -> starts_with PyStr.isdigit rest = false.
Proof.
  destruct rest as [| c r]; simpl; [reflexivity |].
  rewrite andb_true_iff, !negb_true_iff. tauto.
Qed.

Lemma plain_start_point (rest : string) :
  plain_start rest = true -> starts_with (fun c => Ascii.eqb c ".") rest = false.
Proof.
  destruct rest as [| c r]; simpl; [reflexivity |].
  rewrite andb_true_iff, !negb_true_iff. tauto.
Qed.

(** The same two facts for [\d+(?:\.\d+)?] on a decimal. *)
Lemma number_some (d : decimal) (rest : string) k (r : R) :
  wf d = true -> plain_start rest = true ->
  k (text d) rest = Some r ->
  Re.number (text d ++ rest) k = Some r.
Proof.
  unfold wf, text. rewrite andb_true_iff. intros [Hi Hf] Hrest Hk.
  unfold Re.number. destruct (frac_digits d) as [f |].
  - rewrite app_assoc.
    apply digits_run_some; [exact Hi | reflexivity |]. simpl.
    rewrite (digits_run_some f rest "" _ r); [reflexivity | exact Hf | | exact Hk].
    apply plain_start_digit, Hrest.
  - apply digits_run_some; [exact Hi | apply plain_start_digit, Hrest |]. simpl.
    destruct rest as [| c rest']; [exact Hk |].
    pose proof (plain_start_point _ Hrest) as Hp. simpl in Hp. rewrite Hp. exact Hk.
Qed.

Lemma number_refused (d : decimal) (rest : string) k :
  wf d = true -> plain_start rest = true ->
  refuses PyStr.isdigit k -> refuses (fun c => Ascii.eqb c ".") k ->
  Re.number (text d ++ rest) k = k (text d) rest.
Proof.
  unfold wf, text. rewrite andb_true_iff. intros [Hi Hf] Hrest Hdig Hpt.
  unfold Re.number.
  destruct (frac_digits d) as [f |].
  - rewrite app_assoc.
    rewrite digits_run_refused; [| exact Hi | reflexivity |].
    2:{ intros g c r Hc. rewrite (isdigit_not_point c Hc). apply Hdig, Hc. }
    simpl.
    rewrite (digits_run_refused f rest ""); [| exact Hf | apply plain_start_digit, Hrest |].
    2:{ intros g c r Hc. apply Hdig, Hc. }
    simpl. destruct (k (int_digits d ++ String "." f) rest) eqn:Hlong; [reflexivity |].
    apply Hpt. reflexivity.
  - rewrite digits_run_refused; [| exact Hi | apply plain_start_digit, Hrest |].
    2:{ intros g c r Hc. rewrite (isdigit_not_point c Hc). apply Hdig, Hc. }
    simpl. destruct rest as [| c rest']; [destruct (k _ _); reflexivity |].
    pose proof (plain_start_point _ Hrest) as Hp. simpl in Hp. rewrite Hp.
    destruct (k _ _); reflexivity.
Qed.

End Backtracking.

(** [re.match] finds the two decimals around the separator, whatever
    follows the second, as long as it does not continue it... *)
Lemma match_pair_text (sep : ascii) (a b : decimal) (rest : string) :
  separator sep = true -> wf a = true -> wf b = true -> plain_start rest = true ->
  Re.match_pair sep (text a ++ String sep (text b ++ rest)) = Some (text a, text b).
Proof.
  intros Hsep Ha Hb Hrest. unfold Re.match_pair.
  unfold separator in Hsep. apply andb_true_iff in Hsep.
  rewrite !negb_true_iff in Hsep. destruct Hsep as [Hsd Hsp].
  rewrite number_refused; [| exact Ha | simpl; rewrite Hsd, Hsp; reflexivity | |].
  - rewrite Ascii.eqb_refl. apply number_some; [exact Hb | exact Hrest | reflexivity].
  - intros g c r Hc. destruct (Ascii.eqb_spec c sep) as [-> | _]; [congruence | reflexivity].
  - intros g c r Hc. apply Ascii.eqb_eq in Hc. subst c.
    rewrite Ascii.eqb_sym, Hsp. reflexivity.
Qed.

(** ... and nothing when the pattern asks for another separator. *)
Lemma match_pair_other (sep sep' : ascii) (a : decimal) (rest : string) :
  separator sep = true -> separator sep' = true -> Ascii.eqb sep sep' = false ->
  wf a = true ->
  Re.match_pair sep' (text a ++ String sep rest) = None.
Proof.
  intros Hsep Hsep' Hne Ha. unfold Re.match_pair.
  unfold separator in Hsep, Hsep'. apply andb_true_iff in Hsep, Hsep'.
  rewrite !negb_true_iff in Hsep, Hsep'. destruct Hsep as [Hsd Hsp], Hsep' as [Hsd' Hsp'].
  rewrite number_refused; [| exact Ha | simpl; rewrite Hsd, Hsp; reflexivity | |].
  - rewrite Hne. reflexivity.
  - intros g c r Hc. destruct (Ascii.eqb_spec c sep') as [-> | _]; [congruence | reflexivity].
  - intros g c r Hc. apply Ascii.eqb_eq in Hc. subst c.
    rewrite Ascii.eqb_sym, Hsp'. reflexivity.
Qed.

(** * The parser on fractions and odds *)

Lemma has_separator (sep : ascii) (a b : string) : has sep (a ++ String sep b) = true.
Proof. rewrite has_app, has_cons, Ascii.eqb_refl. apply orb_true_r. Qed.

Lemma all_groups_text (a b : decimal) :
  wf a = true -> wf b = true -> all_groups (text a, text b) = true.
Proof.
  intros Ha Hb. unfold all_groups. simpl.
  destruct (text_starts_with_digit a Ha) as (c & s & -> & _).
  destruct (text_starts_with_digit b Hb) as (c' & s' & -> & _). reflexivity.
Qed.

Lemma except_ValueError_div {x y : float} (h : result float) :
  except_ValueError (div x y) h = div x y.
Proof. unfold div. destruct (eqb y pzero); reflexivity. Qed.

(** A token that starts with a fraction is parsed as the quotient of its
    two decimals, by Python's division. *)
Lemma fraction_to_float_fraction (a b : decimal) (rest : string) :
  wf a = true -> wf b = true -> plain_start rest = true ->
  fraction_to_float (text a ++ String "/" (text b ++ rest)) = div (value a) (value b).
Proof.
  intros Ha Hb Hrest. unfold fraction_to_float.
  rewrite (of_string_foreign "/") by (reflexivity || apply has_separator).
  rewrite match_pair_text by (reflexivity || assumption).
  rewrite (all_groups_text a b Ha Hb), (of_string_text a Ha), (of_string_text b Hb).
  unfold bind. apply except_ValueError_div.
Qed.

(** A token that starts with odds [a:b] is parsed as [a / (a + b)]. *)
Lemma fraction_to_float_odds (a b : decimal) (rest : string) :
  wf a = true -> wf b = true -> plain_start rest = true ->
  fraction_to_float (text a ++ String ":" (text b ++ rest))
  = div (value a) (add (value a) (value b)).
Proof.
  intros Ha Hb Hrest. unfold fraction_to_float.
  rewrite (of_string_foreign ":") by (reflexivity || apply has_separator).
  rewrite (match_pair_other ":" "/") by (reflexivity || assumption).
  rewrite match_pair_text by (reflexivity || assumption).
  rewrite (all_groups_text a b Ha Hb), (of_string_text a Ha), (of_string_text b Hb).
  unfold bind. apply except_ValueError_div.
Qed.

(** C5: odds [a:b] of two non-negative decimals are parsed as
    [a / (a + b)] and a fraction [n/m] as [n / m], in float arithmetic with
    Python's division; [0.05], [1/20] and [1:19] all give the float nearest
    to 5/100. *)
Theorem fraction_to_float_notations (a b : decimal) :
  wf a = true -> wf b = true ->
  fraction_to_float (text a ++ ":" ++ text b) = div (value a) (add (value a) (value b))
  /\ fraction_to_float (text a ++ "/" ++ text b) = div (value a) (value b)
  /\ fraction_to_float "0.05" = Ok (of_decimal false 5 (-2))
  /\ fraction_to_float "1/20" = Ok (of_decimal false 5 (-2))
  /\ fraction_to_float "1:19" = Ok (of_decimal false 5 (-2)).
Proof.
  intros Ha Hb. split; [| split; [| repeat apply conj; by_evaluation]].
  - rewrite <- (app_nil_r (text b)). apply fraction_to_float_odds; auto.
  - rewrite <- (app_nil_r (text b)). apply fraction_to_float_fraction; auto.
Qed.

Lemma fraction_to_float_notations_witness :
  wf {| int_digits := "3"; frac_digits := None |} = true
  /\ wf {| int_digits := "0"; frac_digits := Some "75" |} = true
  /\ fraction_to_float "3:0.75" = Ok (lit "0.8")
  /\ fraction_to_float "3/0.75" = Ok (lit "4").
Proof.
  split; [reflexivity | split; [reflexivity |]].
  destruct (fraction_to_float_notations
              {| int_digits := "3"; frac_digits := None |}
              {| int_digits := "0"; frac_digits := Some "75" |}
              eq_refl eq_refl) as (Hodds & Hfrac & _).
  split; [refine (eq_trans Hodds _) | refine (eq_trans Hfrac _)]; by_evaluation.
Defined.

(** C10: the patterns are matched at the start of the token only: what
    follows a fraction or odds, as long as it does not continue the second
    decimal, is ignored. *)
Theorem fraction_to_float_prefix (a b : decimal) (rest : string) :
  wf a = true -> wf b = true -> plain_start rest = true ->
  fraction_to_float (text a ++ "/" ++ text b ++ rest)
  = fraction_to_float (text a ++ "/" ++ text b)
  /\ fraction_to_float (text a ++ ":" ++ text b ++ rest)
     = fraction_to_float (text a ++ ":" ++ text b)
  /\ fraction_to_float "1/2abc" = Ok half
  /\ fraction_to_float "1:19xyz" = Ok (of_decimal false 5 (-2)).
Proof.
  intros Ha Hb Hrest. split; [| split; [| repeat apply conj; by_evaluation]].
  - rewrite <- (app_nil_r (text b)) at 2.
    change (text a ++ "/" ++ text b ++ rest) with (text a ++ String "/" (text b ++ rest)).
    change (text a ++ "/" ++ text b ++ "") with (text a ++ String "/" (text b ++ "")).
    rewrite !fraction_to_float_fraction; auto.
  - rewrite <- (app_nil_r (text b)) at 2.
    change (text a ++ ":" ++ text b ++ rest) with (text a ++ String ":" (text b ++ rest)).
    change (text a ++ ":" ++ text b ++ "") with (text a ++ String ":" (text b ++ "")).
    rewrite !fraction_to_float_odds; auto.
Qed.

Lemma fraction_to_float_prefix_witness :
  plain_start " per day" = true
  /\ fraction_to_float "1/2 per day" = fraction_to_float "1/2"
  /\ fraction_to_float "1:2 per day" = fraction_to_float "1:2".
Proof.
  split; [reflexivity |].
  destruct (fraction_to_float_prefix
              {| int_digits := "1"; frac_digits := None |}
              {| int_digits := "2"; frac_digits := None |}
              " per day" eq_refl eq_refl eq_refl) as (Hfrac & Hodds & _).
  split; [exact Hfrac | exact Hodds].
Defined.

(** * What the parser and the query can raise *)

Lemma of_string_raises (s : string) (e : exn) : of_string s = Raise e -> e = ValueError.
Proof.
  unfold of_string. destruct (strip_underscores "000" s); [| intros H; inversion H; reflexivity].
  destruct (read_sign _) as [neg u]. destruct (parse_decimal neg u); [discriminate |].
  destruct (parse_inf_or_nan neg u); [discriminate |]. intros H; inversion H; reflexivity.
Qed.

Lemma match_pair_start (sep : ascii) (s : string) :
  starts_with PyStr.isdigit s = false -> Re.match_pair sep s = None.
Proof. intros H. unfold Re.match_pair, Re.number. apply digits_stop, H. Qed.

Lemma quotient_raises (x y : result float) (f : float -> float -> float) (e : exn) :
  (forall e', x = Raise e' -> e' = ValueError) ->
  (forall e', y = Raise e' -> e' = ValueError) ->
  except_ValueError (a <- x ;; b <- y ;; div a (f a b)) (Ok pzero) = Raise e ->
  e = ZeroDivisionError.
Proof.
  intros Hx Hy. destruct x as [a | ex]; [| rewrite (Hx ex eq_refl); discriminate].
  destruct y as [b | ey]; [| rewrite (Hy ey eq_refl); discriminate].
  unfold bind. rewrite except_ValueError_div. unfold div.
  destruct (eqb (f a b) pzero); [| discriminate]. intros H; inversion H; reflexivity.
Qed.

Lemma fraction_to_float_raises (s : string) (e : exn) :
  fraction_to_float s = Raise e ->
  e = ZeroDivisionError /\ starts_with PyStr.isdigit s = true.
Proof.
  unfold fraction_to_float. destruct (of_string s) as [x | e0] eqn:Hs; [discriminate |].
  apply of_string_raises in Hs. subst e0. unfold except_ValueError at 1.
  destruct (starts_with PyStr.isdigit s) eqn:Hd;
    [| rewrite !match_pair_start by exact Hd; discriminate].
  intros H. split; [| reflexivity]. revert H.
  destruct (Re.match_pair "/" s) as [[g1 g2] |].
  - destruct (all_groups (g1, g2)); [| discriminate].
    apply (quotient_raises (of_string g1) (of_string g2) (fun _ d => d));
      apply of_string_raises.
  - destruct (Re.match_pair ":" s) as [[g1 g2] |]; [| discriminate].
    destruct (all_groups (g1, g2)); [| discriminate].
    unfold bind. destruct (of_string g1) as [a | ea] eqn:Ha;
      [| rewrite (of_string_raises _ _ Ha); discriminate].
    destruct (of_string g2) as [b | eb] eqn:Hb;
      [| rewrite (of_string_raises _ _ Hb); discriminate].
    rewrite except_ValueError_div. unfold div.
    destruct (eqb (add a b) pzero); [| discriminate]. intros H; inversion H; reflexivity.
Qed.

(** X1: the only exception of the parser is [ZeroDivisionError], and it
    takes a token that starts with a digit. *)
Theorem fraction_to_float_exception (s : string) (e : exn) :
  fraction_to_float s = Raise e ->
  e = ZeroDivisionError /\ starts_with PyStr.isdigit s = true.
Proof. apply fraction_to_float_raises. Qed.

Lemma fraction_to_float_exception_witness :
  fraction_to_float "7/0.0" = Raise ZeroDivisionError
  /\ ZeroDivisionError = ZeroDivisionError /\ starts_with PyStr.isdigit "7/0.0" = true.
Proof.
  assert (H : fraction_to_float "7/0.0" = Raise ZeroDivisionError) by by_evaluation.
  split; [exact H | exact (fraction_to_float_exception "7/0.0" ZeroDivisionError H)].
Defined.

(** X2: a fraction whose denominator reads as zero, and odds whose two
    sides add up to zero, always raise [ZeroDivisionError], whatever
    follows them. *)
Theorem fraction_to_float_zero_divisor (a b : decimal) (rest : string) :
  wf a = true -> wf b = true -> plain_start rest = true ->
  (eqb (value b) pzero = true ->
   fraction_to_float (text a ++ "/" ++ text b ++ rest) = Raise ZeroDivisionError)
  /\ (eqb (add (value a) (value b)) pzero = true ->
      fraction_to_float (text a ++ ":" ++ text b ++ rest) = Raise ZeroDivisionError).
Proof.
  intros Ha Hb Hrest. split; intros Hz.
  - change (text a ++ "/" ++ text b ++ rest) with (text a ++ String "/" (text b ++ rest)).
    rewrite fraction_to_float_fraction by assumption. unfold div. rewrite Hz. reflexivity.
  - change (text a ++ ":" ++ text b ++ rest) with (text a ++ String ":" (text b ++ rest)).
    rewrite fraction_to_float_odds by assumption. unfold div. rewrite Hz. reflexivity.
Qed.

Lemma fraction_to_float_zero_divisor_witness :
  eqb (value {| int_digits := "00"; frac_digits := Some "000" |}) pzero = true
  /\ fraction_to_float "12.5/00.000%" = Raise ZeroDivisionError.
Proof.
  split; [by_evaluation |].
  exact (proj1 (fraction_to_float_zero_divisor
                  {| int_digits := "12"; frac_digits := Some "5" |}
                  {| int_digits := "00"; frac_digits := Some "000" |}
                  "%" eq_refl eq_refl eq_refl) eq_refl).
Defined.

(** X3: a token that [float] refuses and that does not start with a
    digit matches neither pattern and is parsed as 0.0; fractions and odds
    with a sign are among them. *)
Theorem fraction_to_float_sentinel (s : string) :
  of_string s = Raise ValueError -> starts_with PyStr.isdigit s = false ->
  fraction_to_float s = Ok pzero.
Proof.
  intros Hs Hd. unfold fraction_to_float.
  rewrite Hs, !match_pair_start by exact Hd. reflexivity.
Qed.

Lemma fraction_to_float_sentinel_witness :
  of_string "-1/2" = Raise ValueError /\ fraction_to_float "-1/2" = Ok pzero.
Proof.
  split; [reflexivity | apply fraction_to_float_sentinel; reflexivity].
Defined.

(** X4: a token that is a plain non-negative decimal is parsed as the
    float nearest to it. *)
Theorem fraction_to_float_decimal (d : decimal) :
  wf d = true -> fraction_to_float (text d) = Ok (value d).
Proof.
  intros Hd. unfold fraction_to_float. rewrite (of_string_text d Hd). reflexivity.
Qed.

Lemma fraction_to_float_decimal_witness :
  wf {| int_digits := "0"; frac_digits := Some "25" |} = true
  /\ fraction_to_float "0.25" = Ok (of_ratio false 1 4).
Proof.
  split; [reflexivity |].
  refine (eq_trans (fraction_to_float_decimal
                      {| int_digits := "0"; frac_digits := Some "25" |} eq_refl) _).
  by_evaluation.
Defined.

(** X5: the only exceptions that leave [query] are [ZeroDivisionError]
    and [OverflowError]; a [ValueError] never does. *)
Theorem query_exceptions (q : string) (e : exn) :
  query q = Raise e -> e = ZeroDivisionError \/ e = OverflowError.
Proof.
  unfold query. destruct (PyStr.split (PyStr.strip q)) as [| t rest]; [discriminate |].
  assert (Hbody : forall conf,
             (forall e', conf = Raise e' -> e' = ZeroDivisionError) ->
             (probability <- fraction_to_float t ;;
              confidence_level <- conf ;;
              result <- title_or_invalid initial_result
                          (expected_title probability confidence_level) ;;
              Ok [result]) = Raise e ->
             e = ZeroDivisionError \/ e = OverflowError).
  { intros conf Hconf. unfold bind.
    destruct (fraction_to_float t) as [p | ep] eqn:Hp.
    - destruct conf as [c | ec].
      + destruct (expected_title p c) as [title | [ | | ]]; simpl; try discriminate.
        intros H; inversion H. right; reflexivity.
      + intros H; inversion H; subst. left. apply Hconf. reflexivity.
    - intros H; inversion H; subst. left. apply (fraction_to_float_raises t e Hp). }
  destruct rest as [| c1 [| c2 rest']]; try discriminate.
  - apply Hbody. discriminate.
  - apply Hbody. intros e' He'. apply (fraction_to_float_raises c1 e' He').
Qed.

Lemma query_exceptions_witness :
  query "1e-3 -1e999" = Raise OverflowError
  /\ (OverflowError = ZeroDivisionError \/ OverflowError = OverflowError).
Proof.
  assert (H : query "1e-3 -1e999" = Raise OverflowError) by by_evaluation.
  split; [exact H | exact (query_exceptions "1e-3 -1e999" OverflowError H)].
Defined.

(** * The outcomes of a query *)




Lemma lstrip_all (f : ascii -> bool) (s : string) :
  all f s = true -> PyStr.lstrip f s = "".
Proof.
  induction s as [| c s IH]; simpl; [reflexivity |].
  rewrite andb_true_iff. intros [-> Hs]. apply IH, Hs.
Qed.

(** X7: a query of spaces only, like the empty query, gets the prompt. *)
Theorem query_blank (q : string) :
  all PyStr.isspace q = true -> query q = Ok [item prompt].
Proof.
  intros Hq. unfold query, PyStr.strip. rewrite (lstrip_all _ _ Hq). reflexivity.
Qed.

Lemma query_blank_witness :
  all PyStr.isspace "   " = true /\ query "   " = Ok [item prompt].
Proof. split; [reflexivity | apply query_blank; reflexivity]. Defined.

Lemma split_aux_lstrip (s : string) :
  PyStr.split_aux "" (PyStr.lstrip PyStr.isspace s) = PyStr.split_aux "" s.
Proof.
  induction s as [| c s IH]; simpl; [reflexivity |].
  destruct (PyStr.isspace c) eqn:Hc; [exact IH |]. simpl. rewrite Hc. reflexivity.
Qed.

Lemma split_aux_rstrip (s cur : string) :
  PyStr.split_aux cur (PyStr.rstrip PyStr.isspace s) = PyStr.split_aux cur s.
Proof.
  revert cur. induction s as [| c s IH]; intros cur; [reflexivity |].
  simpl PyStr.rstrip. destruct (PyStr.rstrip PyStr.isspace s) as [| x t] eqn:Hr.
  - destruct (PyStr.isspace c) eqn:Hc; simpl; rewrite Hc.
    + destruct cur; rewrite <- IH; reflexivity.
    + rewrite <- IH. reflexivity.
  - simpl PyStr.split_aux at 2. rewrite <- !IH. reflexivity.
Qed.

(** X8: [split] already ignores the spaces around the query, so the
    [strip] before it changes nothing. *)
Theorem split_strip (s : string) : PyStr.split (PyStr.strip s) = PyStr.split s.
Proof.
  unfold PyStr.split, PyStr.strip. rewrite split_aux_rstrip. apply split_aux_lstrip.
Qed.

Lemma ceil_scaled_nonpositive (m : positive) (e : Z) : ceil_scaled (Zneg m) e <= 0.
Proof.
  unfold ceil_scaled. destruct (Z.leb_spec 0 e) as [He | He].
  - assert (0 < 2 ^ e) by (apply Z.pow_pos_nonneg; lia). nia.
  - assert (Hd : 0 < 2 ^ (- e)) by (apply Z.pow_pos_nonneg; lia).
    change (- Zneg m) with (Zpos m).
    assert (0 <= Zpos m / 2 ^ (- e)) by (apply Z.div_pos; lia). lia.
Qed.

(** X9: when the precise value is not above zero (zero of either sign or
    negative), the count is zero or negative. *)
Theorem trials_not_positive (p c precise : float) (n : Z) :
  expected_trials p c = Ok (precise, n) -> ltb pzero precise = false -> n <= 0.
Proof.
  intros H Hneg. unfold expected_trials, bind in H.
  destruct (log (sub one c) (sub one p)) as [x | e]; try discriminate.
  destruct (ceil (round2 x)) as [k | e] eqn:Hceil; try discriminate.
  inversion H; subst; clear H.
  destruct (round2 x) as [s | s | | s m e]; simpl in Hceil; try discriminate.
  - inversion Hceil. lia.
  - destruct s; [| discriminate]. inversion Hceil. apply ceil_scaled_nonpositive.
Qed.

Lemma trials_not_positive_witness :
  expected_trials (lit "0.5") (lit "-3") = Ok (of_Z (-2), -2)
  /\ ltb pzero (of_Z (-2)) = false /\ -2 <= 0.
Proof.
  assert (H : expected_trials (lit "0.5") (lit "-3") = Ok (of_Z (-2), -2)) by by_evaluation.
  split; [exact H | split; [reflexivity |]].
  exact (trials_not_positive (lit "0.5") (lit "-3") (of_Z (-2)) (-2) H eq_refl).
Defined.

Lemma log1_one : log1 one = Ok pzero.
Proof. by_evaluation. Qed.

Lemma expected_trials_zero_probability (s : bool) (c : float) :
  expected_trials (S754_zero s) c = Raise ValueError
  \/ expected_trials (S754_zero s) c = Raise ZeroDivisionError.
Proof.
  unfold expected_trials, log, bind.
  replace (sub one (S754_zero s)) with one by (destruct s; reflexivity).
  rewrite log1_one.
  destruct (log1 (sub one c)) as [num | e] eqn:Hc.
  - right. reflexivity.
  - left. rewrite (log1_raises _ _ Hc). reflexivity.
Qed.

(** X10: a probability token that is parsed as zero, as every token is
    that matches nothing, always ends in [Invalid input(s)!], whatever the
    confidence. *)
Theorem query_zero_probability (q t : string) (rest : list string) (s : bool) (c : float) :
  PyStr.split (PyStr.strip q) = t :: rest ->
  (List.length rest <= 1)%nat ->
  fraction_to_float t = Ok (S754_zero s) ->
  confidence_of rest = Ok c ->
  query q = Ok [item "Invalid input(s)!"].
Proof.
  intros Hsplit Hlen Hp Hc. unfold query. rewrite Hsplit.
  assert (Hbody : (probability <- fraction_to_float t ;;
                   confidence_level <- confidence_of rest ;;
                   result <- title_or_invalid initial_result
                               (expected_title probability confidence_level) ;;
                   Ok [result]) = Ok [item "Invalid input(s)!"]).
  { rewrite Hp, Hc. unfold bind at 1 2. unfold expected_title.
    destruct (expected_trials_zero_probability s c) as [H | H]; rewrite H; reflexivity. }
  destruct rest as [| c1 [| c2 rest']]; try exact Hbody.
  simpl in Hlen. lia.
Qed.

Lemma query_zero_probability_witness :
  fraction_to_float "often" = Ok pzero
  /\ query "often 3/4" = Ok [item "Invalid input(s)!"].
Proof.
  split; [reflexivity |].
  apply (query_zero_probability "often 3/4" "often" ["3/4"] false (lit "0.75"));
    [reflexivity | simpl; lia | reflexivity | by_evaluation].
Defined.

(** X11: with a confidence of zero, which is also what an unreadable
    confidence token is parsed as, a count that is computed is 0 and the
    precise value is a zero. *)
Theorem trials_zero_confidence (p precise : float) (s : bool) (n : Z) :
  expected_trials p (S754_zero s) = Ok (precise, n) ->
  n = 0 /\ exists s', precise = S754_zero s'.
Proof.
  unfold expected_trials, log, bind.
  replace (sub one (S754_zero s)) with one by (destruct s; reflexivity).
  rewrite log1_one.
  destruct (log1 (sub one p)) as [den | e]; [| discriminate].
  unfold div. destruct (eqb den pzero); [discriminate |].
  destruct den as [sd | sd | | sd m e]; simpl; try discriminate;
    intros H; inversion H; split; try reflexivity; eexists; reflexivity.
Qed.

Lemma trials_zero_confidence_witness :
  fraction_to_float "soon" = Ok pzero
  /\ expected_trials (lit "0.5") pzero = Ok (nzero, 0)
  /\ 0 = 0 /\ exists s', nzero = S754_zero s'.
Proof.
  assert (H : expected_trials (lit "0.5") pzero = Ok (nzero, 0)) by by_evaluation.
  split; [reflexivity | split; [exact H |]].
  exact (trials_zero_confidence (lit "0.5") nzero false 0 H).
Defined.
